(** * PeercoinRPC: the retry executor of the JSON-RPC client

    A shallow embedding of [src/PeercoinRPC.ts].  The class sends a method
    name and a parameter list to a remote node through [jsonRpcCmd], retries
    failed calls a bounded number of times with a fixed pause in between, and
    decodes the raw result.

    An [async] method is modelled as a computation over the history of
    observable events (transport calls and pauses) that either returns a
    value or throws.  The recursion of [attempt] is not structural in the
    source (it stops when the attempt counter meets [MAX_ATTEMPTS]), so the
    embedding carries fuel; running out of fuel is kept apart from both
    returning and throwing. *)

From Stdlib Require Import String List ZArith Bool Arith Lia.
Import ListNotations.
Open Scope string_scope.
Open Scope list_scope.

(** ** Values exchanged with the node *)

(** The JSON-compatible values that travel as parameters and results.
    [JUndefined] is JavaScript's [undefined], which an optional argument that
    was not supplied evaluates to. *)
#[warnings="-register-all"]
Inductive JSON : Type :=
| JUndefined
| JNull
| JBool (b : bool)
| JNum (n : Z)
| JStr (s : string)
| JArr (items : list JSON)
| JObj (fields : list (string * JSON)).

(** ** Observable events *)

(** What an invocation does to the outside world: it hands one request to the
    transport ([jsonRpcCmd url method params]) or it sleeps ([delay ms]). *)
Inductive Event : Type :=
| Call (url method : string) (params : list JSON)
| Delay (ms : Z).

Definition History := list Event.

Definition isCall (ev : Event) : bool :=
  match ev with Call _ _ _ => true | Delay _ => false end.

(** Number of requests handed to the transport in a run. *)
Definition transportAttempts (evs : History) : nat :=
  length (filter isCall evs).

(** The pauses of a run, in order, with their durations. *)
Definition delays (evs : History) : list Z :=
  flat_map (fun ev => match ev with Delay ms => [ms] | Call _ _ _ => [] end) evs.

(** Time spent pausing in a run, in milliseconds. *)
Definition totalDelay (evs : History) : Z :=
  fold_right Z.add 0%Z (delays evs).

(** ** The modules the class imports *)

(** The members of [./decoders] that the class names. *)
Inductive Decoder : Type :=
| SendRawTransactionResultDecoder
| SendToAddressResultDecoder
| SignRawTransactionWithWalletResultDecoder
| LockUnspentResultDecoder
| CreateRawTransactionResultDecoder
| FundRawTransactionResultDecoder
| ListTransactionsDecoder
| GetTransactionResultDecoder
| GetInfoResultDecoder
| GetBlockchainInfoResultDecoder
| GetRawTransactionAsObjectResultDecoder
| GetBlockHashFromHeightResultDecoder
| GetBlockFromHashResultDecoder
| GetRawMempoolResultDecoder
| ValidateAddressResultDecoder
| GetNewAddressResultDecoder
| GetBalanceResultDecoder
| GenerateToAddressResultDecoder
| AncientGetInfoResultDecoder
| ListUnspentDecoder
| DumpPrivateKeyDecoder.

(** [./json-rpc] and [./utils] are imported by the class and their code
    lies outside it; what the class uses of them is taken as parameters.

    - [jsonRpcCmd] is the transport.  The node and the network are stateful,
      so its answer may depend on everything that happened before: it reads
      the history.  It yields the raw result or the error it throws.
    - [PURE_METHODS] is the list of read-only method names.
    - [getWasExecutedFromError] is the effect classifier.  The class only
      compares its result with [false], so the result is [Some true]
      (executed), [Some false] (not executed) or [None] (anything else).
    - [getShouldRetry] is the retry policy on the error.
    - [iotsDecode] validates a raw result; it yields the decoded value or the
      error it throws, and performs no transport call. *)
Class Collaborators : Type := {
  Error : Type;
  jsonRpcCmd : History -> string -> string -> list JSON -> JSON + Error;
  PURE_METHODS : list string;
  getWasExecutedFromError : string -> Error -> option bool;
  getShouldRetry : string -> Error -> bool;
  iotsDecode : Decoder -> JSON -> JSON + Error
}.

(** [CreatePeercoinRPCOptions] of [./types]: the one field the class reads.
    [None] is an option left out. *)
Record CreatePeercoinRPCOptions : Type := {
  ancient : option bool
}.

Record PeercoinRPC : Type := {
  url : string;
  options : CreatePeercoinRPCOptions
}.

Definition MAX_ATTEMPTS : nat := 5.
Definition DELAY_BETWEEN_ATTEMPTS : Z := 5000.

(** ** Errors raised by the class *)

Module ErrorData.
(** The object built by [getErrrorData], under its key [PeercoinRPC]. *)
Record t : Type := make {
  method : string;
  params : list JSON;
  methodIsPure : bool;
  maxAttempts : nat;
  attempts : nat
}.
End ErrorData.

(** Modelled from the spec: the class [PeercoinRPCError] of
    [./PeercoinRPCError] is missing; the terminal error "wraps the last
    TransportError plus a diagnostic bundle ... and the final
    ExecutionState", so the value keeps the three arguments of its
    constructor.  [AssignExecuted error b] is [Object.assign(error,
    { executed: b })]: the error thrown by the decoder with its [executed]
    property set. *)
Inductive Thrown {C : Collaborators} : Type :=
| PeercoinRPCError (inner : Error) (executed : option bool) (data : ErrorData.t)
| AssignExecuted (error : Error) (executed : bool).

(** ** Asynchronous computations *)

Inductive Completion (E A : Type) : Type :=
| Return (a : A)
| Throw (e : E).
Arguments Return {E A} a.
Arguments Throw {E A} e.

(** A computation reads the history so far and yields how it completed and
    the history extended by its own events; [None] is fuel exhaustion. *)
Definition Async (E A : Type) : Type :=
  History -> option (Completion E A * History).

Definition ret {E A} (a : A) : Async E A :=
  fun h => Some (Return a, h).

Definition throw {E A} (e : E) : Async E A :=
  fun h => Some (Throw e, h).

Definition outOfFuel {E A} : Async E A :=
  fun _ => None.

Definition bind {E A B} (m : Async E A) (k : A -> Async E B) : Async E B :=
  fun h =>
    match m h with
    | None => None
    | Some (Return a, h') => k a h'
    | Some (Throw e, h') => Some (Throw e, h')
    end.

Definition tryCatch {E E' A} (m : Async E A) (handler : E -> Async E' A)
  : Async E' A :=
  fun h =>
    match m h with
    | None => None
    | Some (Return a, h') => Some (Return a, h')
    | Some (Throw e, h') => handler e h'
    end.

Declare Scope async_scope.
Delimit Scope async_scope with async.
Notation "x <- m ;; k" := (bind m (fun x => k))
  (at level 61, m at next level, right associativity) : async_scope.
Notation "m ;; k" := (bind m (fun _ => k))
  (at level 61, right associativity) : async_scope.
Notation "'try' m 'catch' e => k" := (tryCatch m (fun e => k))
  (at level 62, m at level 61, e name, k at level 200) : async_scope.
Open Scope async_scope.

(** [delay(ms)] of the package [delay]. *)
Definition delay {E} (ms : Z) : Async E unit :=
  fun h => Some (Return tt, h ++ [Delay ms]).

(** ** The class *)

Section PeercoinRPC.
Context {C : Collaborators}.

(** [PURE_METHODS.includes(method)]. *)
Definition includes (xs : list string) (x : string) : bool :=
  existsb (String.eqb x) xs.

(** [executed !== false]. *)
Definition isNotFalse (executed : option bool) : bool :=
  match executed with
  | Some false => false
  | _ => true
  end.

(** [cmd]: one request through the transport. *)
Definition cmd (this : PeercoinRPC) (method : string) (params : list JSON)
  : Async Error JSON :=
  fun h =>
    Some (match jsonRpcCmd h (url this) method params with
          | inl result => Return result
          | inr error => Throw error
          end,
          h ++ [Call (url this) method params]).

Definition getErrrorData (method : string) (params : list JSON)
    (methodIsPure : bool) (maxAttempts attemptN : nat) : ErrorData.t :=
  {| ErrorData.method := method;
     ErrorData.params := params;
     ErrorData.methodIsPure := methodIsPure;
     ErrorData.maxAttempts := maxAttempts;
     ErrorData.attempts := attemptN |}.

(** The closure [attempt] of [cmdWithRetry].  The calls to [debug] only
    write to the diagnostic log and are left out. *)
Fixpoint attempt (this : PeercoinRPC) (method : string) (params : list JSON)
    (fuel : nat) (attemptN : nat) : Async Thrown JSON :=
  match fuel with
  | O => outOfFuel
  | S fuel' =>
    let methodIsPure := includes PURE_METHODS method in
    let maxAttempts := MAX_ATTEMPTS in
    try cmd this method params
    catch error =>
      let executed := getWasExecutedFromError method error in
      let hadEffects := negb methodIsPure && isNotFalse executed in
      let shouldRetry := negb hadEffects && getShouldRetry method error in
      if (attemptN =? maxAttempts)%nat then
        throw (PeercoinRPCError error executed
                 (getErrrorData method params methodIsPure maxAttempts attemptN))
      else if shouldRetry then
        delay DELAY_BETWEEN_ATTEMPTS ;;
        attempt this method params fuel' (attemptN + 1)
      else
        throw (PeercoinRPCError error executed
                 (getErrrorData method params methodIsPure maxAttempts attemptN))
  end.

(** [cmdWithRetry]: the first attempt has number 1. *)
Definition cmdWithRetry (this : PeercoinRPC) (fuel : nat)
    (method : string) (params : list JSON) : Async Thrown JSON :=
  attempt this method params fuel 1.

Definition cmdWithRetryAndDecode (this : PeercoinRPC) (fuel : nat)
    (decoder : Decoder) (method : string) (params : list JSON)
  : Async Thrown JSON :=
  result <- cmdWithRetry this fuel method params ;;
  match iotsDecode decoder result with
  | inl decoded => ret decoded
  | inr error => throw (AssignExecuted error true)
  end.

(** *** Optional arguments

    An optional argument is [None] when it is [undefined]. *)

Definition isDefined {A} (x : option A) : bool :=
  match x with Some _ => true | None => false end.

(** [x ?? d]. *)
Definition orElse {A} (x : option A) (d : A) : A :=
  match x with Some v => v | None => d end.

(** Truthiness of an optional string: [undefined] and the empty string
    are falsy. *)
Definition truthy (x : option string) : bool :=
  match x with
  | Some s => negb (s =? "")%string
  | None => false
  end.

Definition ofString (x : option string) : JSON :=
  match x with Some s => JStr s | None => JUndefined end.

Definition ofBool (x : option bool) : JSON :=
  match x with Some b => JBool b | None => JUndefined end.

(** The parameter list that [sendToAddress] builds before the call. *)
Definition sendToAddressParams (address amount : string)
    (comment commentTo : option string)
    (subtractFeeFromAmount replaceable : option bool) : list JSON :=
  let params := [JStr address; JStr amount] in
  if isDefined replaceable then
    params ++ [JStr (orElse comment ""); JStr (orElse commentTo "");
               JBool (orElse subtractFeeFromAmount false); ofBool replaceable]
  else if isDefined subtractFeeFromAmount then
    params ++ [JStr (orElse comment ""); JStr (orElse commentTo "");
               ofBool subtractFeeFromAmount]
  else if isDefined commentTo then
    params ++ [JStr (orElse comment ""); ofString commentTo]
  else if truthy commentTo then
    params ++ [ofString comment]
  else
    params.

Definition sendToAddress (this : PeercoinRPC) (fuel : nat)
    (address amount : string) (comment commentTo : option string)
    (subtractFeeFromAmount replaceable : option bool) : Async Thrown JSON :=
  cmdWithRetryAndDecode this fuel SendToAddressResultDecoder "sendtoaddress"
    (sendToAddressParams address amount comment commentTo
       subtractFeeFromAmount replaceable).

Definition sendRawTransaction (this : PeercoinRPC) (fuel : nat)
    (hex : string) : Async Thrown JSON :=
  cmdWithRetryAndDecode this fuel SendRawTransactionResultDecoder
    "sendrawtransaction" [JStr hex].

Definition getBlockchainInfo (this : PeercoinRPC) (fuel : nat)
  : Async Thrown JSON :=
  cmdWithRetryAndDecode this fuel GetBlockchainInfoResultDecoder
    "getblockchaininfo" [].

Definition getBalance (this : PeercoinRPC) (fuel : nat)
  : Async Thrown JSON :=
  cmdWithRetryAndDecode this fuel GetBalanceResultDecoder "getbalance" [].

Definition ancientGetInfo (this : PeercoinRPC) (fuel : nat)
  : Async Thrown JSON :=
  cmdWithRetryAndDecode this fuel AncientGetInfoResultDecoder "getinfo" [].

(** [this.options.ancient === true]. *)
Definition isAncient (this : PeercoinRPC) : bool :=
  match ancient (options this) with
  | Some true => true
  | _ => false
  end.

Definition isReady (this : PeercoinRPC) (fuel : nat) : Async Thrown bool :=
  try
    (if isAncient this then ancientGetInfo this fuel
     else getBlockchainInfo this fuel) ;;
    ret true
  catch error =>
    ret false.

Definition getInfo (this : PeercoinRPC) (fuel : nat) : Async Thrown JSON :=
  cmdWithRetryAndDecode this fuel GetInfoResultDecoder "getinfo" [].

(** The argument list [args] of [listUnspent].  [minConf] is a number of
    confirmations; it is passed on as it is. *)
Definition listUnspentArgs (minConf : option Z) : list JSON :=
  match minConf with
  | None => []
  | Some n => [JNum n]
  end.

Definition listUnspent (this : PeercoinRPC) (fuel : nat)
    (minConf : option Z) : Async Thrown JSON :=
  cmdWithRetryAndDecode this fuel ListUnspentDecoder "listunspent"
    (listUnspentArgs minConf).

(** ** Vocabulary of the statements *)

(** The value of [shouldRetry] that [attempt] computes for an error. *)
Definition retryDecision (method : string) (error : Error) : bool :=
  negb (negb (includes PURE_METHODS method)
        && isNotFalse (getWasExecutedFromError method error))
  && getShouldRetry method error.

(** The error [attempt] throws for the error of attempt number [attemptN]. *)
Definition terminalError (method : string) (params : list JSON)
    (attemptN : nat) (error : Error) : Thrown :=
  PeercoinRPCError error (getWasExecutedFromError method error)
    (getErrrorData method params (includes PURE_METHODS method)
       MAX_ATTEMPTS attemptN).

(** [k] failed rounds: each one a request, then a pause of the fixed
    length.  A run that makes [k + 1] attempts leaves the events
    [failedRounds k ++ [Call ...]], and its attempt number [j + 1] meets the
    history extended by [failedRounds j]. *)
Fixpoint failedRounds (this : PeercoinRPC) (method : string)
    (params : list JSON) (k : nat) : History :=
  match k with
  | O => []
  | S k' =>
    Call (url this) method params :: Delay DELAY_BETWEEN_ATTEMPTS
      :: failedRounds this method params k'
  end.

(** The runs of [attempt], as a relation: from attempt number [n] and
    history [h], the closure completes with [c] and leaves history [h']. *)
Inductive Run (this : PeercoinRPC) (method : string) (params : list JSON)
  : nat -> History -> Completion Thrown JSON -> History -> Prop :=
| Run_success n h result :
    jsonRpcCmd h (url this) method params = inl result ->
    Run this method params n h (Return result)
      (h ++ [Call (url this) method params])
| Run_exhausted n h error :
    jsonRpcCmd h (url this) method params = inr error ->
    n = MAX_ATTEMPTS ->
    Run this method params n h (Throw (terminalError method params n error))
      (h ++ [Call (url this) method params])
| Run_refused n h error :
    jsonRpcCmd h (url this) method params = inr error ->
    n <> MAX_ATTEMPTS ->
    retryDecision method error = false ->
    Run this method params n h (Throw (terminalError method params n error))
      (h ++ [Call (url this) method params])
| Run_retry n h error c h' :
    jsonRpcCmd h (url this) method params = inr error ->
    n <> MAX_ATTEMPTS ->
    retryDecision method error = true ->
    Run this method params (n + 1)
      ((h ++ [Call (url this) method params])
         ++ [Delay DELAY_BETWEEN_ATTEMPTS]) c h' ->
    Run this method params n h c h'.

(** What a run looks like: [k] failed rounds, every one of them on an
    error the handler decided to retry, then one last request whose
    outcome is the outcome of the run. *)
Definition RunShape (this : PeercoinRPC) (method : string)
    (params : list JSON) (n : nat) (h : History)
    (c : Completion Thrown JSON) (h' : History) (k : nat) : Prop :=
  h' = h ++ failedRounds this method params k ++ [Call (url this) method params]
  /\ (n <= MAX_ATTEMPTS -> n + k <= MAX_ATTEMPTS)
  /\ (forall j, j < k ->
        exists error,
          jsonRpcCmd (h ++ failedRounds this method params j)
            (url this) method params = inr error
          /\ retryDecision method error = true)
  /\ match c with
     | Return result =>
         jsonRpcCmd (h ++ failedRounds this method params k)
           (url this) method params = inl result
     | Throw t =>
         exists error,
           jsonRpcCmd (h ++ failedRounds this method params k)
             (url this) method params = inr error
           /\ t = terminalError method params (n + k) error
           /\ (n + k = MAX_ATTEMPTS \/ retryDecision method error = false)
     end.

End PeercoinRPC.

(** ** Concrete nodes *)

Definition client : PeercoinRPC :=
  {| url := "http://127.0.0.1:9904"; options := {| ancient := None |} |}.

(** A scripted node, with errors identified by their message.
    - [getbalance] is always refused at connection.
    - [sendrawtransaction] answers that the transaction is already known.
    - [sendtoaddress] times out once, then answers with a transaction id.
    - [lockunspent] fails with an error no pattern matches.
    - [getinfo] answers [null], which no decoder accepts.
    - every other method answers [true]. *)
Definition scriptedNode : Collaborators := {|
  Error := string;
  jsonRpcCmd := fun h _ method _ =>
    if (method =? "getbalance")%string then inr "ECONNREFUSED"
    else if (method =? "sendrawtransaction")%string then
      inr "transaction already in block chain"
    else if (method =? "sendtoaddress")%string then
      if (transportAttempts h =? 0)%nat then inr "ETIMEDOUT" else inl (JStr "txid")
    else if (method =? "lockunspent")%string then inr "Internal error"
    else if (method =? "getinfo")%string then inl JNull
    else inl (JBool true);
  PURE_METHODS := ["getbalance"; "getblockchaininfo"; "getinfo"];
  getWasExecutedFromError := fun _ error =>
    if (error =? "transaction already in block chain")%string then Some true
    else if (error =? "ECONNREFUSED")%string then Some false
    else if (error =? "ETIMEDOUT")%string then Some false
    else None;
  getShouldRetry := fun _ error =>
    (error =? "ECONNREFUSED")%string || (error =? "ETIMEDOUT")%string;
  iotsDecode := fun _ raw =>
    match raw with
    | JNull => inr "Invalid value null"
    | _ => inl raw
    end
|}.

(** A node whose classifier reports every failure as executed and whose
    policy allows every retry; [getbalance] is pure and always fails. *)
Definition eagerNode : Collaborators := {|
  Error := string;
  jsonRpcCmd := fun _ _ _ _ => inr "Work queue depth exceeded";
  PURE_METHODS := ["getbalance"];
  getWasExecutedFromError := fun _ _ => Some true;
  getShouldRetry := fun _ _ => true;
  iotsDecode := fun _ raw => inl raw
|}.

(** * Properties *)

Section Properties.
Context {C : Collaborators}.
Variable this : PeercoinRPC.
Variables (method : string) (params : list JSON).

Local Abbreviation call := (Call (url this) method params).
Local Abbreviation pause := (Delay DELAY_BETWEEN_ATTEMPTS).

(** One step of [attempt], with the handler's conditions spelled out. *)
Lemma attempt_step fuel n h :
  attempt this method params (S fuel) n h =
  match jsonRpcCmd h (url this) method params with
  | inl result => Some (Return result, h ++ [call])
  | inr error =>
    if (n =? MAX_ATTEMPTS)%nat then
      Some (Throw (terminalError method params n error), h ++ [call])
    else if retryDecision method error then
      attempt this method params fuel (n + 1) ((h ++ [call]) ++ [pause])
    else
      Some (Throw (terminalError method params n error), h ++ [call])
  end.
Proof.
  cbn [attempt]. unfold tryCatch, cmd.
  destruct (jsonRpcCmd h (url this) method params) as [result | error];
    [reflexivity |].
  fold (retryDecision method error).
  destruct (n =? MAX_ATTEMPTS)%nat; [reflexivity |].
  destruct (retryDecision method error); reflexivity.
Qed.

(** Every completed evaluation of [attempt] is a run. *)
Lemma attempt_Run fuel : forall n h c h',
  attempt this method params fuel n h = Some (c, h') ->
  Run this method params n h c h'.
Proof.
  induction fuel as [| fuel IH]; intros n h c h' E; [discriminate |].
  rewrite attempt_step in E.
  destruct (jsonRpcCmd h (url this) method params) as [result | error] eqn:T.
  - injection E as <- <-. now apply Run_success.
  - destruct (n =? MAX_ATTEMPTS)%nat eqn:N.
    + apply Nat.eqb_eq in N. injection E as <- <-. now apply Run_exhausted.
    + apply Nat.eqb_neq in N.
      destruct (retryDecision method error) eqn:D.
      * eapply Run_retry; eauto.
      * injection E as <- <-. now apply Run_refused.
Qed.

(** From an attempt number within the bound, [attempt] completes as soon
    as the fuel covers the attempts that remain. *)
Lemma attempt_completes fuel : forall n h,
  n <= MAX_ATTEMPTS -> MAX_ATTEMPTS - n < fuel ->
  exists c h', attempt this method params fuel n h = Some (c, h').
Proof.
  induction fuel as [| fuel IH]; intros n h Hn Hf; [lia |].
  rewrite attempt_step.
  destruct (jsonRpcCmd h (url this) method params) as [result | error];
    [eauto |].
  destruct (n =? MAX_ATTEMPTS)%nat eqn:N; [eauto |].
  apply Nat.eqb_neq in N.
  destruct (retryDecision method error); [| eauto].
  apply IH; lia.
Qed.

Local Abbreviation rounds := (failedRounds this method params).

Lemma round_app (h x : History) :
  ((h ++ [call]) ++ [pause]) ++ x = h ++ call :: pause :: x.
Proof. now rewrite <- !app_assoc. Qed.

Lemma transportAttempts_app (a b : History) :
  transportAttempts (a ++ b) = transportAttempts a + transportAttempts b.
Proof. unfold transportAttempts. now rewrite filter_app, length_app. Qed.

Lemma delays_app (a b : History) : delays (a ++ b) = delays a ++ delays b.
Proof. unfold delays. now rewrite flat_map_app. Qed.

Lemma transportAttempts_rounds k : transportAttempts (rounds k) = k.
Proof.
  induction k as [| k IH]; [reflexivity |].
  cbn [failedRounds]. change (transportAttempts (rounds k)) with
    (length (filter isCall (rounds k))) in IH.
  unfold transportAttempts. cbn. now rewrite IH.
Qed.

Lemma delays_rounds k : delays (rounds k) = repeat DELAY_BETWEEN_ATTEMPTS k.
Proof.
  induction k as [| k IH]; [reflexivity |].
  cbn [failedRounds repeat]. unfold delays in *. cbn. now rewrite IH.
Qed.

Lemma transportAttempts_run k : transportAttempts (rounds k ++ [call]) = S k.
Proof.
  rewrite transportAttempts_app, transportAttempts_rounds. cbn. lia.
Qed.

Lemma delays_run k :
  delays (rounds k ++ [call]) = repeat DELAY_BETWEEN_ATTEMPTS k.
Proof. rewrite delays_app, delays_rounds. cbn. apply app_nil_r. Qed.

Local Abbreviation RunShape := (RunShape this method params).

Lemma Run_shape n h c h' :
  Run this method params n h c h' -> exists k, RunShape n h c h' k.
Proof.
  induction 1 as [n h result T | n h error T N | n h error T N D
                 | n h error c h' T N D R [k (E & B & F & L)]].
  - exists 0. unfold RunShape. cbn [failedRounds app].
    rewrite app_nil_r. repeat split; [lia | intros j Hj; lia | assumption].
  - exists 0. unfold RunShape. cbn [failedRounds app].
    rewrite app_nil_r, Nat.add_0_r.
    repeat split; [lia | intros j Hj; lia |]. exists error. auto.
  - exists 0. unfold RunShape. cbn [failedRounds app].
    rewrite app_nil_r, Nat.add_0_r.
    repeat split; [lia | intros j Hj; lia |]. exists error. auto.
  - exists (S k). unfold RunShape. cbn [failedRounds].
    rewrite round_app in E. repeat split.
    + exact E.
    + lia.
    + intros [| j] Hj.
      * exists error. cbn [failedRounds]. rewrite app_nil_r. auto.
      * destruct (F j) as (e & Te & De); [lia |].
        exists e. cbn [failedRounds]. rewrite round_app in Te. auto.
    + destruct c as [result | t].
      * rewrite round_app in L. exact L.
      * destruct L as (e & Te & -> & Le). exists e.
        rewrite round_app in Te. replace (n + S k) with (n + 1 + k) by lia.
        auto.
Qed.

(** The runs of [cmdWithRetry]. *)
Lemma cmdWithRetry_shape fuel h0 c h :
  cmdWithRetry this fuel method params h0 = Some (c, h) ->
  exists k, RunShape 1 h0 c h k /\ k < MAX_ATTEMPTS.
Proof.
  intros E. apply attempt_Run, Run_shape in E. destruct E as [k S].
  exists k. split; [exact S |].
  destruct S as (_ & B & _). unfold MAX_ATTEMPTS in *. lia.
Qed.

Lemma cmdWithRetry_completes fuel h0 :
  MAX_ATTEMPTS <= fuel ->
  exists c h, cmdWithRetry this fuel method params h0 = Some (c, h).
Proof.
  intros Hf. apply attempt_completes; unfold MAX_ATTEMPTS in *; lia.
Qed.

Lemma length_rounds k : length (rounds k) = 2 * k.
Proof. induction k as [| k IH]; cbn [failedRounds length]; lia. Qed.

(** For a method that is not pure, an error the classifier does not
    report as not executed is never retried. *)
Lemma retryDecision_hadEffects error :
  includes PURE_METHODS method = false ->
  isNotFalse (getWasExecutedFromError method error) = true ->
  retryDecision method error = false.
Proof. intros P E. unfold retryDecision. now rewrite P, E. Qed.

Lemma retryDecision_pure error :
  includes PURE_METHODS method = true ->
  retryDecision method error = getShouldRetry method error.
Proof. intros P. unfold retryDecision. now rewrite P. Qed.

Lemma retryDecision_not_executed error :
  getWasExecutedFromError method error = Some false ->
  retryDecision method error = getShouldRetry method error.
Proof.
  intros E. unfold retryDecision. rewrite E. cbn.
  now rewrite andb_false_r.
Qed.

(** A failed attempt that had effects ends the run: the attempt is the
    last event and its error is the one reported. *)
Lemma hadEffects_ends_run fuel h0 c h j rest error :
  includes PURE_METHODS method = false ->
  cmdWithRetry this fuel method params h0 = Some (c, h) ->
  h = (h0 ++ rounds j ++ [call]) ++ rest ->
  jsonRpcCmd (h0 ++ rounds j) (url this) method params = inr error ->
  isNotFalse (getWasExecutedFromError method error) = true ->
  rest = [] /\ c = Throw (terminalError method params (S j) error).
Proof.
  intros P E Hh T X.
  destruct (cmdWithRetry_shape _ _ _ _ E) as (k & (Hk & _ & F & L) & _).
  assert (Hjk : j <= k).
  { apply (f_equal (@length Event)) in Hk. rewrite Hh in Hk.
    rewrite !length_app, !length_rounds in Hk. cbn in Hk. lia. }
  destruct (Nat.eq_dec j k) as [-> | Hne].
  - split.
    + rewrite Hh, <- !app_assoc in Hk.
      do 2 apply app_inv_head in Hk. cbn in Hk. now injection Hk.
    + destruct c as [result | t].
      * rewrite L in T. discriminate.
      * destruct L as (e & Te & -> & _). rewrite Te in T.
        injection T as ->. reflexivity.
  - destruct (F j) as (e & Te & De); [lia |].
    rewrite Te in T. injection T as ->.
    rewrite (retryDecision_hadEffects error P X) in De. discriminate.
Qed.

(** If every failure the run meets is one the handler retries, the run
    ends on a success or on the failure of attempt [MAX_ATTEMPTS]. *)
Lemma retried_until_bound fuel h0 :
  (forall j error, j < MAX_ATTEMPTS ->
     jsonRpcCmd (h0 ++ rounds j) (url this) method params = inr error ->
     retryDecision method error = true) ->
  MAX_ATTEMPTS <= fuel ->
  exists c k,
    cmdWithRetry this fuel method params h0
      = Some (c, h0 ++ rounds k ++ [call])
    /\ k < MAX_ATTEMPTS
    /\ match c with
       | Return result =>
           jsonRpcCmd (h0 ++ rounds k) (url this) method params = inl result
       | Throw t =>
           S k = MAX_ATTEMPTS
           /\ exists error,
                jsonRpcCmd (h0 ++ rounds k) (url this) method params
                  = inr error
                /\ t = terminalError method params MAX_ATTEMPTS error
       end.
Proof.
  intros R Hf.
  destruct (cmdWithRetry_completes fuel h0 Hf) as (c & h & E).
  destruct (cmdWithRetry_shape _ _ _ _ E) as (k & (Hk & _ & _ & L) & Bk).
  exists c, k. rewrite E, Hk. repeat split; [exact Bk |].
  destruct c as [result | t]; [exact L |].
  destruct L as (e & Te & -> & [Hm | D]).
  - split; [exact Hm |]. exists e. rewrite <- Hm. auto.
  - rewrite (R k e Bk Te) in D. discriminate.
Qed.

(** ** The bound on attempts *)

(** C1: one invocation of the retry executor hands at most [MAX_ATTEMPTS]
    (5) requests to the transport, whatever the fuel above that bound; and
    when request number [MAX_ATTEMPTS] fails, the run ends there by
    throwing the [PeercoinRPCError] built from that failure. *)
Theorem attempts_bounded_by_MAX_ATTEMPTS fuel h0 :
  MAX_ATTEMPTS <= fuel ->
  exists c evs,
    cmdWithRetry this fuel method params h0 = Some (c, h0 ++ evs)
    /\ transportAttempts evs <= MAX_ATTEMPTS
    /\ (transportAttempts evs = MAX_ATTEMPTS ->
        forall error,
          jsonRpcCmd (h0 ++ removelast evs) (url this) method params
            = inr error ->
          c = Throw (PeercoinRPCError error
                       (getWasExecutedFromError method error)
                       (getErrrorData method params
                          (includes PURE_METHODS method)
                          MAX_ATTEMPTS MAX_ATTEMPTS))).
Proof.
  intros Hf.
  destruct (cmdWithRetry_completes fuel h0 Hf) as (c & h & E).
  destruct (cmdWithRetry_shape _ _ _ _ E) as (k & (Hk & _ & _ & L) & Bk).
  exists c, (rounds k ++ [call]). rewrite E, Hk.
  rewrite transportAttempts_run, removelast_last.
  repeat split; [lia |].
  intros Hm error T. destruct c as [result | t].
  - rewrite L in T. discriminate.
  - destruct L as (e & Te & -> & _). rewrite Te in T. injection T as ->.
    replace (1 + k) with MAX_ATTEMPTS by lia. reflexivity.
Qed.

(** ** What the terminal error reports *)

(** C7: when the retry executor fails, the error it throws wraps the error
    of the last request, carries the classifier's verdict on that very
    error, and a bundle with the method name, the parameters, the purity
    flag, the number of requests made and the bound [MAX_ATTEMPTS]. *)
Theorem terminal_error_reports_last_attempt fuel h0 t h :
  cmdWithRetry this fuel method params h0 = Some (Throw t, h) ->
  exists evs error,
    h = h0 ++ evs ++ [call]
    /\ jsonRpcCmd (h0 ++ evs) (url this) method params = inr error
    /\ t = PeercoinRPCError error (getWasExecutedFromError method error)
             {| ErrorData.method := method;
                ErrorData.params := params;
                ErrorData.methodIsPure := includes PURE_METHODS method;
                ErrorData.maxAttempts := MAX_ATTEMPTS;
                ErrorData.attempts := transportAttempts (evs ++ [call]) |}.
Proof.
  intros E.
  destruct (cmdWithRetry_shape _ _ _ _ E) as (k & (Hk & _ & _ & L) & _).
  destruct L as (e & Te & -> & _).
  exists (rounds k), e. rewrite transportAttempts_run.
  repeat split; assumption.
Qed.

(** ** The pause between attempts *)

(** C9: the events of a run are [k] rounds, each a request followed by a
    pause of [DELAY_BETWEEN_ATTEMPTS] (5000 ms), and then one last request.
    So every attempt after the first comes right after one pause, all the
    pauses have the same length, the first event is a request and so is the
    last: no pause precedes the first attempt or follows the final one. *)
Theorem delay_between_attempts_is_constant fuel h0 c h :
  cmdWithRetry this fuel method params h0 = Some (c, h) ->
  exists k evs,
    h = h0 ++ evs
    /\ evs = failedRounds this method params k ++ [call]
    /\ k < MAX_ATTEMPTS
    /\ transportAttempts evs = S k
    /\ delays evs = repeat 5000%Z k
    /\ hd_error evs = Some call
    /\ last evs call = call.
Proof.
  intros E.
  destruct (cmdWithRetry_shape _ _ _ _ E) as (k & (Hk & _) & Bk).
  exists k, (rounds k ++ [call]).
  rewrite transportAttempts_run, delays_run, last_last.
  repeat split; try assumption.
  now destruct k.
Qed.

(** ** Retrying up to the bound *)

(** C4: for a pure method, if every attempt fails with an error that
    [getShouldRetry] accepts, the executor makes exactly [MAX_ATTEMPTS] (5)
    requests and then fails, with one pause of the configured length
    between consecutive requests: [MAX_ATTEMPTS - 1] pauses in all. *)
Theorem pure_method_exhausts_attempts fuel h0 :
  includes PURE_METHODS method = true ->
  (forall j, j < MAX_ATTEMPTS ->
     exists error,
       jsonRpcCmd (h0 ++ failedRounds this method params j)
         (url this) method params = inr error
       /\ getShouldRetry method error = true) ->
  MAX_ATTEMPTS <= fuel ->
  exists error evs,
    cmdWithRetry this fuel method params h0
      = Some (Throw (PeercoinRPCError error
                       (getWasExecutedFromError method error)
                       (getErrrorData method params true
                          MAX_ATTEMPTS MAX_ATTEMPTS)),
              h0 ++ evs)
    /\ evs = failedRounds this method params (MAX_ATTEMPTS - 1) ++ [call]
    /\ transportAttempts evs = MAX_ATTEMPTS
    /\ delays evs = repeat DELAY_BETWEEN_ATTEMPTS (MAX_ATTEMPTS - 1).
Proof.
  intros P A Hf.
  destruct (retried_until_bound fuel h0) as (c & k & E & Bk & L);
    [| exact Hf |].
  { intros j error Hj T. destruct (A j Hj) as (e & Te & Se).
    rewrite Te in T. injection T as <-.
    now rewrite retryDecision_pure. }
  destruct c as [result | t].
  - destruct (A k Bk) as (e & Te & _). rewrite Te in L. discriminate.
  - destruct L as (Hk & e & Te & ->).
    exists e, (rounds k ++ [call]).
    replace (MAX_ATTEMPTS - 1) with k by lia.
    rewrite transportAttempts_run, delays_run, E.
    unfold terminalError. rewrite P. auto.
Qed.

(** C5: for a method that is not pure, if every failure the run meets is
    classified as not executed and accepted by [getShouldRetry], the
    executor goes on retrying: the run ends only on a success or on the
    failure of attempt [MAX_ATTEMPTS].  The handler's decision is then
    [getShouldRetry]'s, as it is for a pure method. *)
Theorem non_pure_not_executed_retries fuel h0 :
  includes PURE_METHODS method = false ->
  (forall j error, j < MAX_ATTEMPTS ->
     jsonRpcCmd (h0 ++ failedRounds this method params j)
       (url this) method params = inr error ->
     getWasExecutedFromError method error = Some false
     /\ getShouldRetry method error = true) ->
  MAX_ATTEMPTS <= fuel ->
  exists c k,
    cmdWithRetry this fuel method params h0
      = Some (c, h0 ++ failedRounds this method params k ++ [call])
    /\ k < MAX_ATTEMPTS
    /\ match c with
       | Return result =>
           jsonRpcCmd (h0 ++ failedRounds this method params k)
             (url this) method params = inl result
       | Throw t =>
           transportAttempts (failedRounds this method params k ++ [call])
             = MAX_ATTEMPTS
           /\ exists error,
                jsonRpcCmd (h0 ++ failedRounds this method params k)
                  (url this) method params = inr error
                /\ t = PeercoinRPCError error (Some false)
                         (getErrrorData method params false
                            MAX_ATTEMPTS MAX_ATTEMPTS)
       end.
Proof.
  intros P A Hf.
  destruct (retried_until_bound fuel h0) as (c & k & E & Bk & L);
    [| exact Hf |].
  { intros j error Hj T. destruct (A j error Hj T) as (X & Se).
    now rewrite retryDecision_not_executed. }
  exists c, k. repeat split; [exact E | exact Bk |].
  destruct c as [result | t]; [exact L |].
  destruct L as (Hk & e & Te & ->).
  rewrite transportAttempts_run. split; [exact Hk |].
  exists e. split; [exact Te |].
  destruct (A k e Bk Te) as (X & _).
  unfold terminalError. now rewrite P, X.
Qed.

(** ** Failures that had effects *)

(** C2, amended: for a method that is not pure, when an attempt of a run
    fails with an error the classifier reports as executed, that attempt
    is the last event of the run (no pause, no further request) and the
    run throws the [PeercoinRPCError] built from that error. *)
Theorem executed_stops_non_pure fuel h0 c h j rest error :
  includes PURE_METHODS method = false ->
  cmdWithRetry this fuel method params h0 = Some (c, h) ->
  h = (h0 ++ failedRounds this method params j ++ [call]) ++ rest ->
  jsonRpcCmd (h0 ++ failedRounds this method params j)
    (url this) method params = inr error ->
  getWasExecutedFromError method error = Some true ->
  rest = []
  /\ c = Throw (PeercoinRPCError error (Some true)
                  (getErrrorData method params false MAX_ATTEMPTS (S j))).
Proof.
  intros P E Hh T X.
  destruct (hadEffects_ends_run fuel h0 c h j rest error P E Hh T)
    as (-> & ->); [now rewrite X |].
  unfold terminalError. now rewrite P, X.
Qed.

(** C3: for a method that is not pure, when an attempt of a run fails with
    an error the classifier reports neither as executed nor as not executed,
    that attempt is the last event of the run and the run throws the
    [PeercoinRPCError] built from that error, whatever [getShouldRetry]
    says of the error. *)
Theorem unknown_stops_non_pure fuel h0 c h j rest error :
  includes PURE_METHODS method = false ->
  cmdWithRetry this fuel method params h0 = Some (c, h) ->
  h = (h0 ++ failedRounds this method params j ++ [call]) ++ rest ->
  jsonRpcCmd (h0 ++ failedRounds this method params j)
    (url this) method params = inr error ->
  getWasExecutedFromError method error = None ->
  rest = []
  /\ c = Throw (PeercoinRPCError error None
                  (getErrrorData method params false MAX_ATTEMPTS (S j))).
Proof.
  intros P E Hh T X.
  destruct (hadEffects_ends_run fuel h0 c h j rest error P E Hh T)
    as (-> & ->); [now rewrite X |].
  unfold terminalError. now rewrite P, X.
Qed.

(** ** Decoding *)

(** [cmdWithRetryAndDecode] runs the retry executor once and then only
    looks at its result. *)
Lemma cmdWithRetryAndDecode_run fuel decoder h0 :
  cmdWithRetryAndDecode this fuel decoder method params h0 =
  match cmdWithRetry this fuel method params h0 with
  | None => None
  | Some (Return raw, h) =>
      Some (match iotsDecode decoder raw with
            | inl decoded => Return decoded
            | inr error => Throw (AssignExecuted error true)
            end, h)
  | Some (Throw t, h) => Some (Throw t, h)
  end.
Proof.
  unfold cmdWithRetryAndDecode, bind.
  destruct (cmdWithRetry this fuel method params h0) as [[[raw | t] h] |];
    try reflexivity.
  now destruct (iotsDecode decoder raw).
Qed.

Lemma cmdWithRetryAndDecode_completes fuel decoder h0 :
  MAX_ATTEMPTS <= fuel ->
  exists c k,
    cmdWithRetryAndDecode this fuel decoder method params h0
      = Some (c, h0 ++ rounds k ++ [call]).
Proof.
  intros Hf. rewrite cmdWithRetryAndDecode_run.
  destruct (cmdWithRetry_completes fuel h0 Hf) as (c & h & E).
  destruct (cmdWithRetry_shape _ _ _ _ E) as (k & (Hk & _) & _).
  rewrite E, Hk. destruct c as [raw | t]; eauto.
Qed.

(** C6: when the retry executor returns a raw result and the decoder
    rejects it, [cmdWithRetryAndDecode] throws the decoder's error with
    [executed] set to [true], and the history is the one the executor
    left, ending with the request that succeeded: no request and no pause
    is added. *)
Theorem decode_failure_is_executed_and_final fuel decoder h0 raw h error :
  cmdWithRetry this fuel method params h0 = Some (Return raw, h) ->
  iotsDecode decoder raw = inr error ->
  cmdWithRetryAndDecode this fuel decoder method params h0
    = Some (Throw (AssignExecuted error true), h)
  /\ exists k,
       h = h0 ++ failedRounds this method params k ++ [call]
       /\ jsonRpcCmd (h0 ++ failedRounds this method params k)
            (url this) method params = inl raw.
Proof.
  intros E D. split.
  - now rewrite cmdWithRetryAndDecode_run, E, D.
  - destruct (cmdWithRetry_shape _ _ _ _ E) as (k & (Hk & _ & _ & L) & _).
    eauto.
Qed.

End Properties.

Section Operations.
Context {C : Collaborators}.
Variable this : PeercoinRPC.

(** ** The readiness probe *)

(** C8: [isReady] never throws.  It returns [true] when the call it makes
    ([ancientGetInfo] when [options.ancient] is [true], [getBlockchainInfo]
    otherwise) returns, and [false] when that call throws. *)
Theorem isReady_never_throws fuel h0 :
  MAX_ATTEMPTS <= fuel ->
  exists c h,
    (if isAncient this then ancientGetInfo this fuel
     else getBlockchainInfo this fuel) h0 = Some (c, h)
    /\ isReady this fuel h0
       = Some (Return match c with
                      | Return _ => true
                      | Throw _ => false
                      end, h).
Proof.
  intros Hf. unfold isReady, tryCatch, bind, ret.
  destruct (isAncient this).
  - destruct (cmdWithRetryAndDecode_completes this "getinfo" [] fuel
                AncientGetInfoResultDecoder h0 Hf) as (c & k & E).
    unfold ancientGetInfo. rewrite E. exists c. eexists.
    split; [reflexivity |]. now destruct c.
  - destruct (cmdWithRetryAndDecode_completes this "getblockchaininfo" []
                fuel GetBlockchainInfoResultDecoder h0 Hf) as (c & k & E).
    unfold getBlockchainInfo. rewrite E. exists c. eexists.
    split; [reflexivity |]. now destruct c.
Qed.

(** ** Optional arguments of [sendToAddress] *)

(** C10: called with a comment but without [commentTo],
    [subtractFeeFromAmount] and [replaceable], [sendToAddress] builds the
    parameter list [[address, amount]], and every request of the run
    carries exactly that list: the comment is not sent. *)
Theorem sendToAddress_drops_comment fuel address amount comment h0 :
  MAX_ATTEMPTS <= fuel ->
  sendToAddressParams address amount (Some comment) None None None
    = [JStr address; JStr amount]
  /\ exists c k,
       sendToAddress this fuel address amount (Some comment) None None None
         h0
       = Some (c,
               h0 ++ failedRounds this "sendtoaddress"
                       [JStr address; JStr amount] k
                  ++ [Call (url this) "sendtoaddress"
                        [JStr address; JStr amount]]).
Proof.
  intros Hf. split; [reflexivity |].
  unfold sendToAddress.
  change (sendToAddressParams address amount (Some comment) None None None)
    with [JStr address; JStr amount].
  now apply cmdWithRetryAndDecode_completes.
Qed.

End Operations.

(** * The statements on concrete nodes *)

Section OnScriptedNode.
#[local] Existing Instance scriptedNode.

Lemma attempts_bounded_by_MAX_ATTEMPTS_holds :
  MAX_ATTEMPTS <= 8
  /\ exists c evs,
       cmdWithRetry (C := scriptedNode) client 8 "getbalance" [] []
         = Some (c, [] ++ evs)
       /\ transportAttempts evs <= MAX_ATTEMPTS
       /\ (transportAttempts evs = MAX_ATTEMPTS ->
           forall error,
             jsonRpcCmd ([] ++ removelast evs) (url client) "getbalance" []
               = inr error ->
             c = Throw (PeercoinRPCError error
                          (getWasExecutedFromError "getbalance" error)
                          (getErrrorData "getbalance" []
                             (includes PURE_METHODS "getbalance")
                             MAX_ATTEMPTS MAX_ATTEMPTS))).
Proof.
  assert (Hf : MAX_ATTEMPTS <= 8) by (unfold MAX_ATTEMPTS; lia).
  split; [exact Hf |].
  exact (attempts_bounded_by_MAX_ATTEMPTS client "getbalance" [] 8 [] Hf).
Defined.

Lemma executed_stops_non_pure_holds :
  cmdWithRetry (C := scriptedNode) client 8 "sendrawtransaction" [JStr "00"] []
    = Some (Throw (PeercoinRPCError (C := scriptedNode)
                     "transaction already in block chain" (Some true)
                     (getErrrorData "sendrawtransaction" [JStr "00"] false
                        MAX_ATTEMPTS 1)),
            [Call (url client) "sendrawtransaction" [JStr "00"]])
  /\ ([] : History) = []
  /\ Throw (PeercoinRPCError (C := scriptedNode)
              "transaction already in block chain" (Some true)
              (getErrrorData "sendrawtransaction" [JStr "00"] false
                 MAX_ATTEMPTS 1))
     = Throw (A := JSON)
         (PeercoinRPCError "transaction already in block chain" (Some true)
            (getErrrorData "sendrawtransaction" [JStr "00"] false
               MAX_ATTEMPTS 1)).
Proof.
  split; [reflexivity |].
  apply (executed_stops_non_pure (C := scriptedNode) client
           "sendrawtransaction" [JStr "00"] 8 [] _
           [Call (url client) "sendrawtransaction" [JStr "00"]] 0 []
           "transaction already in block chain");
    reflexivity.
Defined.

Lemma unknown_stops_non_pure_holds :
  getShouldRetry (Collaborators := scriptedNode) "lockunspent" "Internal error"
    = false
  /\ ([] : History) = []
  /\ Throw (PeercoinRPCError (C := scriptedNode) "Internal error" None
              (getErrrorData "lockunspent" [] false MAX_ATTEMPTS 1))
     = Throw (A := JSON)
         (PeercoinRPCError "Internal error" None
            (getErrrorData "lockunspent" [] false MAX_ATTEMPTS 1)).
Proof.
  split; [reflexivity |].
  apply (unknown_stops_non_pure (C := scriptedNode) client "lockunspent" []
           8 [] _ [Call (url client) "lockunspent" []] 0 [] "Internal error");
    reflexivity.
Defined.

Lemma pure_method_exhausts_attempts_holds :
  exists error evs,
    cmdWithRetry (C := scriptedNode) client 8 "getbalance" [] []
      = Some (Throw (PeercoinRPCError error
                       (getWasExecutedFromError "getbalance" error)
                       (getErrrorData "getbalance" [] true
                          MAX_ATTEMPTS MAX_ATTEMPTS)),
              [] ++ evs)
    /\ evs = failedRounds client "getbalance" [] (MAX_ATTEMPTS - 1)
               ++ [Call (url client) "getbalance" []]
    /\ transportAttempts evs = MAX_ATTEMPTS
    /\ delays evs = repeat DELAY_BETWEEN_ATTEMPTS (MAX_ATTEMPTS - 1).
Proof.
  apply (pure_method_exhausts_attempts (C := scriptedNode) client
           "getbalance" [] 8 []).
  - reflexivity.
  - intros j Hj. exists "ECONNREFUSED". split; reflexivity.
  - unfold MAX_ATTEMPTS. lia.
Defined.

Lemma non_pure_not_executed_retries_holds :
  exists c k,
    cmdWithRetry (C := scriptedNode) client 8 "sendtoaddress"
      [JStr "addr"; JStr "1.0"] []
      = Some (c, [] ++ failedRounds client "sendtoaddress"
                         [JStr "addr"; JStr "1.0"] k
                    ++ [Call (url client) "sendtoaddress"
                          [JStr "addr"; JStr "1.0"]])
    /\ k < MAX_ATTEMPTS
    /\ match c with
       | Return result =>
           jsonRpcCmd ([] ++ failedRounds client "sendtoaddress"
                               [JStr "addr"; JStr "1.0"] k)
             (url client) "sendtoaddress" [JStr "addr"; JStr "1.0"]
           = inl result
       | Throw t =>
           transportAttempts
             (failedRounds client "sendtoaddress" [JStr "addr"; JStr "1.0"] k
                ++ [Call (url client) "sendtoaddress"
                      [JStr "addr"; JStr "1.0"]])
           = MAX_ATTEMPTS
           /\ exists error,
                jsonRpcCmd ([] ++ failedRounds client "sendtoaddress"
                                    [JStr "addr"; JStr "1.0"] k)
                  (url client) "sendtoaddress" [JStr "addr"; JStr "1.0"]
                = inr error
                /\ t = PeercoinRPCError error (Some false)
                         (getErrrorData "sendtoaddress"
                            [JStr "addr"; JStr "1.0"] false
                            MAX_ATTEMPTS MAX_ATTEMPTS)
       end.
Proof.
  apply (non_pure_not_executed_retries (C := scriptedNode) client
           "sendtoaddress" [JStr "addr"; JStr "1.0"] 8 []).
  - reflexivity.
  - intros [| j] error Hj T; cbn in T.
    + injection T as <-. split; reflexivity.
    + discriminate T.
  - unfold MAX_ATTEMPTS. lia.
Defined.

Lemma decode_failure_is_executed_and_final_holds :
  cmdWithRetry (C := scriptedNode) client 8 "getinfo" [] []
    = Some (Return JNull, [Call (url client) "getinfo" []])
  /\ iotsDecode (Collaborators := scriptedNode) GetInfoResultDecoder JNull
     = inr "Invalid value null"
  /\ cmdWithRetryAndDecode (C := scriptedNode) client 8 GetInfoResultDecoder
       "getinfo" [] []
     = Some (Throw (AssignExecuted "Invalid value null" true),
             [Call (url client) "getinfo" []]).
Proof.
  split; [reflexivity |]. split; [reflexivity |].
  apply (decode_failure_is_executed_and_final (C := scriptedNode) client
           "getinfo" [] 8 GetInfoResultDecoder [] JNull
           [Call (url client) "getinfo" []] "Invalid value null");
    reflexivity.
Defined.

Lemma terminal_error_reports_last_attempt_holds :
  exists evs error,
    [Call (url client) "getbalance" []; Delay 5000;
     Call (url client) "getbalance" []; Delay 5000;
     Call (url client) "getbalance" []; Delay 5000;
     Call (url client) "getbalance" []; Delay 5000;
     Call (url client) "getbalance" []]
    = [] ++ evs ++ [Call (url client) "getbalance" []]
    /\ jsonRpcCmd (Collaborators := scriptedNode) ([] ++ evs) (url client)
         "getbalance" [] = inr error
    /\ PeercoinRPCError "ECONNREFUSED" (Some false)
         (getErrrorData "getbalance" [] true 5 5)
       = PeercoinRPCError error (getWasExecutedFromError "getbalance" error)
           {| ErrorData.method := "getbalance";
              ErrorData.params := [];
              ErrorData.methodIsPure := includes PURE_METHODS "getbalance";
              ErrorData.maxAttempts := MAX_ATTEMPTS;
              ErrorData.attempts :=
                transportAttempts (evs ++ [Call (url client) "getbalance" []])
           |}.
Proof.
  apply (terminal_error_reports_last_attempt (C := scriptedNode) client
           "getbalance" [] 8 []).
  reflexivity.
Defined.

Lemma isReady_never_throws_holds :
  exists c h,
    (if isAncient client then ancientGetInfo (C := scriptedNode) client 8
     else getBlockchainInfo client 8) [] = Some (c, h)
    /\ isReady client 8 []
       = Some (Return match c with
                      | Return _ => true
                      | Throw _ => false
                      end, h).
Proof.
  apply (isReady_never_throws (C := scriptedNode) client 8 []).
  unfold MAX_ATTEMPTS. lia.
Defined.

Lemma delay_between_attempts_is_constant_holds :
  exists k evs,
    [Call (url client) "sendtoaddress" [JStr "addr"; JStr "1.0"]; Delay 5000;
     Call (url client) "sendtoaddress" [JStr "addr"; JStr "1.0"]]
    = [] ++ evs
    /\ evs = failedRounds client "sendtoaddress" [JStr "addr"; JStr "1.0"] k
               ++ [Call (url client) "sendtoaddress"
                     [JStr "addr"; JStr "1.0"]]
    /\ k < MAX_ATTEMPTS
    /\ transportAttempts evs = S k
    /\ delays evs = repeat 5000%Z k
    /\ hd_error evs
       = Some (Call (url client) "sendtoaddress" [JStr "addr"; JStr "1.0"])
    /\ last evs (Call (url client) "sendtoaddress" [JStr "addr"; JStr "1.0"])
       = Call (url client) "sendtoaddress" [JStr "addr"; JStr "1.0"].
Proof.
  apply (delay_between_attempts_is_constant (C := scriptedNode) client
           "sendtoaddress" [JStr "addr"; JStr "1.0"] 8 []
           (Return (JStr "txid"))).
  reflexivity.
Defined.

Lemma sendToAddress_drops_comment_holds :
  sendToAddressParams "addr" "1.0" (Some "rent") None None None
    = [JStr "addr"; JStr "1.0"]
  /\ exists c k,
       sendToAddress (C := scriptedNode) client 8 "addr" "1.0" (Some "rent")
         None None None []
       = Some (c,
               [] ++ failedRounds client "sendtoaddress"
                       [JStr "addr"; JStr "1.0"] k
                  ++ [Call (url client) "sendtoaddress"
                        [JStr "addr"; JStr "1.0"]]).
Proof.
  apply (sendToAddress_drops_comment (C := scriptedNode) client 8
           "addr" "1.0" "rent" []).
  unfold MAX_ATTEMPTS. lia.
Defined.

End OnScriptedNode.

(** C2 as stated, for every method, fails: on a pure method whose failures
    the classifier reports as executed and the policy accepts, the first
    failed attempt is followed by four more. *)
Lemma executed_pure_method_is_retried :
  ~ (forall (C : Collaborators) (this : PeercoinRPC) (method : string)
            (params : list JSON) (fuel : nat) (h0 : History)
            (c : Completion Thrown JSON) (h : History) (j : nat)
            (rest : History) (error : Error),
       cmdWithRetry this fuel method params h0 = Some (c, h) ->
       h = (h0 ++ failedRounds this method params j
               ++ [Call (url this) method params]) ++ rest ->
       jsonRpcCmd (h0 ++ failedRounds this method params j)
         (url this) method params = inr error ->
       getWasExecutedFromError method error = Some true ->
       rest = []).
Proof.
  intros claim.
  assert (E : cmdWithRetry (C := eagerNode) client 8 "getbalance" [] []
              = Some (Throw (PeercoinRPCError (C := eagerNode)
                               "Work queue depth exceeded" (Some true)
                               (getErrrorData "getbalance" [] true 5 5)),
                      [Call (url client) "getbalance" []]
                        ++ [Delay 5000; Call (url client) "getbalance" [];
                            Delay 5000; Call (url client) "getbalance" [];
                            Delay 5000; Call (url client) "getbalance" [];
                            Delay 5000; Call (url client) "getbalance" []]))
    by reflexivity.
  pose proof (claim eagerNode client "getbalance" [] 8 [] _ _ 0 _ _
                E eq_refl eq_refl eq_refl) as X.
  discriminate X.
Qed.

(** * Further properties of the retry executor *)

Section Executor.
Context {C : Collaborators}.
Variable this : PeercoinRPC.
Variables (method : string) (params : list JSON).

Local Abbreviation call := (Call (url this) method params).
Local Abbreviation pause := (Delay DELAY_BETWEEN_ATTEMPTS).
Local Abbreviation rounds := (failedRounds this method params).

(** The handler retries exactly the errors [getShouldRetry] accepts, and for
    a method that is not pure only those classified as not executed. *)
Lemma retryDecision_true error :
  retryDecision method error = true <->
  getShouldRetry method error = true
  /\ (includes PURE_METHODS method = true
      \/ getWasExecutedFromError method error = Some false).
Proof.
  unfold retryDecision.
  destruct (includes PURE_METHODS method),
    (getWasExecutedFromError method error) as [[|] |],
    (getShouldRetry method error); cbn; intuition discriminate.
Qed.

Lemma retryDecision_false error :
  retryDecision method error = false <->
  getShouldRetry method error = false
  \/ (includes PURE_METHODS method = false
      /\ getWasExecutedFromError method error <> Some false).
Proof.
  unfold retryDecision.
  destruct (includes PURE_METHODS method),
    (getWasExecutedFromError method error) as [[|] |],
    (getShouldRetry method error); cbn; intuition (discriminate || congruence).
Qed.

(** Where attempt number [j + 1] sits in a run that made [k + 1] attempts. *)
Lemma attempt_index fuel h0 c h j rest :
  cmdWithRetry this fuel method params h0 = Some (c, h) ->
  h = (h0 ++ rounds j ++ [call]) ++ rest ->
  exists k,
    RunShape this method params 1 h0 c h k /\ k < MAX_ATTEMPTS /\ j <= k
    /\ (j = k -> rest = []) /\ (rest = [] -> j = k).
Proof.
  intros E Hh.
  destruct (cmdWithRetry_shape _ _ _ _ _ _ _ E) as (k & S & Bk).
  exists k. split; [exact S |]. split; [exact Bk |].
  destruct S as (Hk & _).
  assert (L : 2 * j + 1 + length rest = 2 * k + 1).
  { apply (f_equal (@length Event)) in Hk. rewrite Hh in Hk.
    rewrite !length_app, !length_rounds in Hk. cbn in Hk. lia. }
  split; [lia |]. split.
  - intros ->. destruct rest; [reflexivity | cbn in L; lia].
  - intros ->. cbn in L. lia.
Qed.

(** An attempt on which the handler decides not to retry is the last. *)
Lemma refused_ends_run fuel h0 c h j rest error :
  cmdWithRetry this fuel method params h0 = Some (c, h) ->
  h = (h0 ++ rounds j ++ [call]) ++ rest ->
  jsonRpcCmd (h0 ++ rounds j) (url this) method params = inr error ->
  retryDecision method error = false ->
  rest = [] /\ c = Throw (terminalError method params (S j) error).
Proof.
  intros E Hh T D.
  destruct (attempt_index _ _ _ _ _ _ E Hh)
    as (k & (_ & _ & F & L) & _ & Hjk & Hr & _).
  destruct (Nat.eq_dec j k) as [-> | Hne].
  - split; [now apply Hr |].
    destruct c as [result | t].
    + rewrite L in T. discriminate.
    + destruct L as (e & Te & -> & _). rewrite Te in T. now injection T as ->.
  - destruct (F j) as (e & Te & De); [lia |].
    rewrite Te in T. injection T as ->. rewrite D in De. discriminate.
Qed.

(** Every attempt that was followed by another one had failed, with an
    error that [getShouldRetry] accepts and, unless the method is pure, that
    the classifier reports as not executed; and it was not attempt number
    [MAX_ATTEMPTS]. *)
Theorem retried_only_when_safe fuel h0 c h j rest :
  cmdWithRetry this fuel method params h0 = Some (c, h) ->
  h = (h0 ++ failedRounds this method params j ++ [call]) ++ rest ->
  rest <> [] ->
  exists error,
    jsonRpcCmd (h0 ++ failedRounds this method params j)
      (url this) method params = inr error
    /\ getShouldRetry method error = true
    /\ (includes PURE_METHODS method = true
        \/ getWasExecutedFromError method error = Some false)
    /\ S j < MAX_ATTEMPTS.
Proof.
  intros E Hh Hrest.
  destruct (attempt_index _ _ _ _ _ _ E Hh)
    as (k & (_ & _ & F & _) & Bk & Hjk & Hr & _).
  assert (Hlt : j < k).
  { destruct (Nat.eq_dec j k) as [Heq | Hne]; [| lia].
    now apply Hr in Heq. }
  destruct (F j Hlt) as (e & Te & De).
  apply retryDecision_true in De. destruct De as (Se & Pe).
  exists e. repeat split; try assumption. lia.
Qed.

(** Whatever the method, an attempt that fails with an error
    [getShouldRetry] rejects is the last event of the run, and the run throws
    the [PeercoinRPCError] built from that error and from the number of the
    attempt. *)
Theorem rejected_error_stops_any_method fuel h0 c h j rest error :
  cmdWithRetry this fuel method params h0 = Some (c, h) ->
  h = (h0 ++ failedRounds this method params j ++ [call]) ++ rest ->
  jsonRpcCmd (h0 ++ failedRounds this method params j)
    (url this) method params = inr error ->
  getShouldRetry method error = false ->
  rest = []
  /\ c = Throw (PeercoinRPCError error (getWasExecutedFromError method error)
                  (getErrrorData method params (includes PURE_METHODS method)
                     MAX_ATTEMPTS (S j))).
Proof.
  intros E Hh T X.
  apply (refused_ends_run fuel h0 c h j rest error E Hh T).
  apply retryDecision_false. now left.
Qed.

(** An attempt on which the transport returns a result is the last event of
    the run, and the run returns that result as it is. *)
Theorem success_is_terminal fuel h0 c h j rest result :
  cmdWithRetry this fuel method params h0 = Some (c, h) ->
  h = (h0 ++ failedRounds this method params j ++ [call]) ++ rest ->
  jsonRpcCmd (h0 ++ failedRounds this method params j)
    (url this) method params = inl result ->
  rest = [] /\ c = Return result.
Proof.
  intros E Hh T.
  destruct (attempt_index _ _ _ _ _ _ E Hh)
    as (k & (_ & _ & F & L) & _ & Hjk & Hr & _).
  destruct (Nat.eq_dec j k) as [-> | Hne].
  - split; [now apply Hr |].
    destruct c as [r | t].
    + rewrite L in T. now injection T as ->.
    + destruct L as (e & Te & _). rewrite Te in T. discriminate.
  - destruct (F j) as (e & Te & _); [lia |].
    rewrite Te in T. discriminate.
Qed.

(** If the first [k] attempts, [k < MAX_ATTEMPTS], fail with errors that
    [getShouldRetry] accepts and that, unless the method is pure, are
    classified as not executed, and the next attempt gets a result, then the
    executor returns that result after [k + 1] requests and [k] pauses. *)
Theorem recovers_after_retryable_failures fuel h0 k result :
  k < MAX_ATTEMPTS ->
  (forall j, j < k ->
     exists error,
       jsonRpcCmd (h0 ++ failedRounds this method params j)
         (url this) method params = inr error
       /\ getShouldRetry method error = true
       /\ (includes PURE_METHODS method = true
           \/ getWasExecutedFromError method error = Some false)) ->
  jsonRpcCmd (h0 ++ failedRounds this method params k)
    (url this) method params = inl result ->
  MAX_ATTEMPTS <= fuel ->
  cmdWithRetry this fuel method params h0
    = Some (Return result, h0 ++ failedRounds this method params k ++ [call])
  /\ transportAttempts (failedRounds this method params k ++ [call]) = S k
  /\ delays (failedRounds this method params k ++ [call])
     = repeat DELAY_BETWEEN_ATTEMPTS k.
Proof.
  intros Bk A T Hf.
  rewrite transportAttempts_run, delays_run.
  split; [| split; reflexivity].
  destruct (cmdWithRetry_completes this method params fuel h0 Hf)
    as (c & h & E).
  destruct (cmdWithRetry_shape _ _ _ _ _ _ _ E)
    as (k' & (Hk & _ & F & L) & Bk').
  assert (Hkk : k' = k).
  { destruct (Nat.lt_trichotomy k' k) as [Hlt | [Heq | Hgt]];
      [exfalso | exact Heq | exfalso].
    - destruct (A k' Hlt) as (e & Te & Se & Pe).
      destruct c as [r | t].
      + rewrite L in Te. discriminate.
      + destruct L as (e' & Te' & _ & [Hm | D]); [lia |].
        rewrite Te' in Te. injection Te as ->.
        assert (R : retryDecision method e = true)
          by (apply retryDecision_true; auto).
        rewrite R in D. discriminate.
    - destruct (F k Hgt) as (e & Te & _). rewrite Te in T. discriminate. }
  subst k'. rewrite E, Hk. destruct c as [r | t].
  - rewrite L in T. now injection T as ->.
  - destruct L as (e & Te & _). rewrite Te in T. discriminate.
Qed.

(** A [PeercoinRPCError] thrown by the executor counts between 1 and
    [maxAttempts] = 5 attempts; one that counts fewer than [maxAttempts] was
    thrown because the error could not be retried: [getShouldRetry] rejected
    it, or the method is not pure and the classifier did not report the
    failure as not executed. *)
Theorem early_terminal_error_was_not_retryable fuel h0 t h :
  cmdWithRetry this fuel method params h0 = Some (Throw t, h) ->
  exists error data,
    t = PeercoinRPCError error (getWasExecutedFromError method error) data
    /\ ErrorData.maxAttempts data = 5
    /\ 1 <= ErrorData.attempts data <= ErrorData.maxAttempts data
    /\ (ErrorData.attempts data < ErrorData.maxAttempts data ->
        getShouldRetry method error = false
        \/ (includes PURE_METHODS method = false
            /\ getWasExecutedFromError method error <> Some false)).
Proof.
  intros E.
  destruct (cmdWithRetry_shape _ _ _ _ _ _ _ E)
    as (k & (_ & _ & _ & (e & _ & -> & Hd)) & Bk).
  exists e. eexists. split; [reflexivity |]. cbn.
  unfold MAX_ATTEMPTS in *. repeat split; try lia.
  intros Hlt. destruct Hd as [Hm | D]; [lia |].
  now apply retryDecision_false.
Qed.

Lemma totalDelay_repeat d k :
  fold_right Z.add 0%Z (repeat d k) = (d * Z.of_nat k)%Z.
Proof.
  induction k as [| k IH]; [cbn; lia |].
  cbn [repeat fold_right]. rewrite IH. lia.
Qed.

(** [cmdWithRetryAndDecode], from the last request of its run. *)
Lemma decode_after_last_request fuel decoder h0 :
  MAX_ATTEMPTS <= fuel ->
  exists k,
    k < MAX_ATTEMPTS
    /\ cmdWithRetryAndDecode this fuel decoder method params h0
       = Some (match jsonRpcCmd (h0 ++ failedRounds this method params k)
                       (url this) method params with
               | inl raw =>
                   match iotsDecode decoder raw with
                   | inl decoded => Return decoded
                   | inr error => Throw (AssignExecuted error true)
                   end
               | inr error =>
                   Throw (PeercoinRPCError error
                            (getWasExecutedFromError method error)
                            (getErrrorData method params
                               (includes PURE_METHODS method)
                               MAX_ATTEMPTS (S k)))
               end,
               h0 ++ failedRounds this method params k ++ [call]).
Proof.
  intros Hf. rewrite cmdWithRetryAndDecode_run.
  destruct (cmdWithRetry_completes this method params fuel h0 Hf)
    as (c & h & E).
  destruct (cmdWithRetry_shape _ _ _ _ _ _ _ E)
    as (k & (Hk & _ & _ & L) & Bk).
  exists k. split; [exact Bk |]. rewrite E, Hk.
  destruct c as [raw | t].
  - now rewrite L.
  - destruct L as (e & Te & -> & _). now rewrite Te.
Qed.

(** The outcome of [cmdWithRetryAndDecode] is read off the last request of
    the run: a result the decoder accepts is returned decoded, a result it
    rejects gives the decoder's error with [executed] set to [true], and a
    failure gives the [PeercoinRPCError] of that failure. *)
Theorem cmdWithRetryAndDecode_outcome fuel decoder h0 :
  MAX_ATTEMPTS <= fuel ->
  exists k,
    k < MAX_ATTEMPTS
    /\ cmdWithRetryAndDecode this fuel decoder method params h0
       = Some (match jsonRpcCmd (h0 ++ failedRounds this method params k)
                       (url this) method params with
               | inl raw =>
                   match iotsDecode decoder raw with
                   | inl decoded => Return decoded
                   | inr error => Throw (AssignExecuted error true)
                   end
               | inr error =>
                   Throw (PeercoinRPCError error
                            (getWasExecutedFromError method error)
                            (getErrrorData method params
                               (includes PURE_METHODS method)
                               MAX_ATTEMPTS (S k)))
               end,
               h0 ++ failedRounds this method params k ++ [call]).
Proof.
  intros Hf.
  destruct (cmdWithRetryAndDecode_completes this method params fuel decoder
              h0 Hf) as (c & k & E).
  pose proof E as E'. rewrite cmdWithRetryAndDecode_run in E'.
  destruct (cmdWithRetry this fuel method params h0) as [[c' h'] |] eqn:R;
    [| discriminate].
  assert (Hh : h' = h0 ++ rounds k ++ [call])
    by (destruct c'; now injection E').
  destruct (cmdWithRetry_shape _ _ _ _ _ _ _ R)
    as (k' & (Hk & _ & _ & L) & Bk).
  assert (Hkk : k' = k).
  { rewrite Hh in Hk. apply app_inv_head in Hk.
    apply (f_equal (@length Event)) in Hk.
    rewrite !length_app, !length_rounds in Hk. cbn in Hk. lia. }
  subst k'. exists k. split; [exact Bk |].
  rewrite cmdWithRetryAndDecode_run, R, Hh.
  destruct c' as [raw | t].
  - now rewrite L.
  - destruct L as (e & Te & -> & _). now rewrite Te.
Qed.


(** Every event of a run of [cmdWithRetryAndDecode] is either the request
    the operation was called with (same url, method and parameters) or a
    pause of [DELAY_BETWEEN_ATTEMPTS]: a retry sends the first request
    again, unchanged, and decoding adds no event. *)
Theorem retries_resend_the_same_request fuel decoder h0 c h :
  cmdWithRetryAndDecode this fuel decoder method params h0 = Some (c, h) ->
  exists evs,
    h = h0 ++ evs
    /\ Forall (fun ev => ev = call \/ ev = Delay 5000) evs
    /\ 1 <= transportAttempts evs <= MAX_ATTEMPTS.
Proof.
  rewrite cmdWithRetryAndDecode_run.
  destruct (cmdWithRetry this fuel method params h0) as [[c' h'] |] eqn:E;
    [| discriminate].
  destruct (cmdWithRetry_shape _ _ _ _ _ _ _ E) as (k & (Hk & _) & Bk).
  intros X. assert (Hh : h = h') by (destruct c'; now injection X).
  rewrite <- Hh in Hk. exists (rounds k ++ [call]).
  rewrite transportAttempts_run. repeat split; try lia; [exact Hk |].
  apply Forall_app. split; [| constructor; [now left | constructor]].
  clear. induction k as [| k IH]; cbn [failedRounds]; [constructor |].
  constructor; [now left |]. constructor; [now right | exact IH].
Qed.

(** The time an operation spends pausing is 5000 ms for each request after
    the first, hence never more than 20000 ms. *)
Theorem total_delay_is_bounded fuel decoder h0 c evs :
  cmdWithRetryAndDecode this fuel decoder method params h0
    = Some (c, h0 ++ evs) ->
  totalDelay evs = (5000 * (Z.of_nat (transportAttempts evs) - 1))%Z
  /\ (totalDelay evs <= 20000)%Z.
Proof.
  rewrite cmdWithRetryAndDecode_run.
  destruct (cmdWithRetry this fuel method params h0) as [[c' h'] |] eqn:E;
    [| discriminate].
  destruct (cmdWithRetry_shape _ _ _ _ _ _ _ E) as (k & (Hk & _) & Bk).
  intros X. assert (Hh : h0 ++ evs = h') by (destruct c'; now injection X).
  rewrite Hk in Hh. apply app_inv_head in Hh. subst evs.
  unfold totalDelay. rewrite delays_run, transportAttempts_run.
  rewrite totalDelay_repeat. unfold DELAY_BETWEEN_ATTEMPTS, MAX_ATTEMPTS in *.
  lia.
Qed.

(** A failure of the retry executor goes through [cmdWithRetryAndDecode]
    as it is, whatever the decoder: it stays a [PeercoinRPCError] carrying the
    classifier's verdict and is never turned into an error tagged
    [executed = true]. *)
Theorem executor_failure_passes_through fuel decoder h0 t h :
  cmdWithRetry this fuel method params h0 = Some (Throw t, h) ->
  cmdWithRetryAndDecode this fuel decoder method params h0
    = Some (Throw t, h)
  /\ exists error data,
       t = PeercoinRPCError error (getWasExecutedFromError method error) data.
Proof.
  intros E. split.
  - now rewrite cmdWithRetryAndDecode_run, E.
  - destruct (cmdWithRetry_shape _ _ _ _ _ _ _ E)
      as (k & (_ & _ & _ & (e & _ & -> & _)) & _).
    exists e. eexists. reflexivity.
Qed.

End Executor.

(** * Further properties of the operations *)

Section Marshalling.
Context {C : Collaborators}.
Variable this : PeercoinRPC.

(** [isReady] sends [getinfo] when [options.ancient] is [true] and
    [getblockchaininfo] otherwise, without parameters and at most
    [MAX_ATTEMPTS] times; it answers [true] exactly when the last request
    returned a result that the decoder accepts, so a result of the wrong
    shape also gives [false]. *)
Theorem isReady_reports_last_request fuel h0 :
  MAX_ATTEMPTS <= fuel ->
  let method := if isAncient this then "getinfo" else "getblockchaininfo" in
  let decoder := if isAncient this then AncientGetInfoResultDecoder
                 else GetBlockchainInfoResultDecoder in
  exists k,
    k < MAX_ATTEMPTS
    /\ isReady this fuel h0
       = Some (Return
                 match jsonRpcCmd (h0 ++ failedRounds this method [] k)
                         (url this) method [] with
                 | inl raw =>
                     match iotsDecode decoder raw with
                     | inl _ => true
                     | inr _ => false
                     end
                 | inr _ => false
                 end,
               h0 ++ failedRounds this method [] k
                  ++ [Call (url this) method []]).
Proof.
  intros Hf method decoder.
  assert (E : (if isAncient this then ancientGetInfo this fuel
               else getBlockchainInfo this fuel)
              = cmdWithRetryAndDecode this fuel decoder method [])
    by (subst method decoder; now destruct (isAncient this)).
  unfold isReady, tryCatch, bind, ret. rewrite E.
  destruct (decode_after_last_request this method [] fuel decoder h0 Hf)
    as (k & Bk & R).
  exists k. split; [exact Bk |]. rewrite R.
  destruct (jsonRpcCmd (h0 ++ failedRounds this method [] k)
              (url this) method []) as [raw | e]; [| reflexivity].
  now destruct (iotsDecode decoder raw).
Qed.

(** [sendToAddress] never sends [undefined]: every entry of the parameter
    list it builds is a string or a boolean. *)
Theorem sendToAddress_sends_no_undefined
    address amount comment commentTo subtractFeeFromAmount replaceable :
  Forall (fun p => p <> JUndefined)
    (sendToAddressParams address amount comment commentTo
       subtractFeeFromAmount replaceable).
Proof.
  destruct replaceable, subtractFeeFromAmount, commentTo;
    cbn; repeat constructor; discriminate.
Qed.

(** The parameter list of [sendToAddress] has 2, 4, 5 or 6 entries, never
    3; when it has more than 2, the third is the comment and the fourth the
    [commentTo], each replaced by the empty string when it is undefined. *)
Theorem sendToAddress_positions
    address amount comment commentTo subtractFeeFromAmount replaceable :
  let params := sendToAddressParams address amount comment commentTo
                  subtractFeeFromAmount replaceable in
  length params <> 3
  /\ 2 <= length params <= 6
  /\ nth_error params 0 = Some (JStr address)
  /\ nth_error params 1 = Some (JStr amount)
  /\ (2 < length params ->
      nth_error params 2 = Some (JStr (orElse comment ""))
      /\ nth_error params 3 = Some (JStr (orElse commentTo ""))).
Proof.
  destruct replaceable, subtractFeeFromAmount, commentTo; cbn;
    repeat split; try lia; try discriminate.
Qed.

(** Supplying a later optional argument of [sendToAddress] only extends the
    parameter list: what is sent without it is a prefix of what is sent with
    it. *)
Theorem sendToAddress_later_argument_extends
    address amount comment commentTo subtractFeeFromAmount
    (commentTo' : string) (subtractFeeFromAmount' replaceable' : bool) :
  (exists more,
     sendToAddressParams address amount comment (Some commentTo') None None
     = sendToAddressParams address amount comment None None None ++ more)
  /\ (exists more,
        sendToAddressParams address amount comment commentTo
          (Some subtractFeeFromAmount') None
        = sendToAddressParams address amount comment commentTo None None
            ++ more)
  /\ (exists more,
        sendToAddressParams address amount comment commentTo
          subtractFeeFromAmount (Some replaceable')
        = sendToAddressParams address amount comment commentTo
            subtractFeeFromAmount None ++ more).
Proof.
  repeat split.
  - eexists. cbn. reflexivity.
  - destruct commentTo; eexists; cbn; reflexivity.
  - destruct subtractFeeFromAmount, commentTo; eexists; cbn; reflexivity.
Qed.

(** [listUnspent] sends no parameter at all when [minConf] is undefined,
    and the single parameter [minConf] otherwise; every request of the run
    carries that list. *)
Theorem listUnspent_omits_missing_minConf fuel minConf h0 :
  MAX_ATTEMPTS <= fuel ->
  exists c k args,
    listUnspent this fuel minConf h0
      = Some (c, h0 ++ failedRounds this "listunspent" args k
                    ++ [Call (url this) "listunspent" args])
    /\ length args = (if isDefined minConf then 1 else 0)
    /\ Forall (fun p => p <> JUndefined) args
    /\ (forall n, minConf = Some n -> args = [JNum n]).
Proof.
  intros Hf.
  destruct (cmdWithRetryAndDecode_completes this "listunspent"
              (listUnspentArgs minConf) fuel ListUnspentDecoder h0 Hf)
    as (c & k & E).
  exists c, k, (listUnspentArgs minConf). split; [exact E |].
  destruct minConf as [n |]; cbn; repeat split.
  - repeat constructor. discriminate.
  - now intros ? [= ->].
  - constructor.
  - discriminate.
Qed.

End Marshalling.

(** * The further statements on the scripted node *)

Section FurtherOnScriptedNode.
#[local] Existing Instance scriptedNode.

Local Abbreviation pay := (Call (url client) "sendtoaddress"
                             [JStr "addr"; JStr "1.0"]).

Lemma retried_only_when_safe_holds :
  exists error,
    jsonRpcCmd ([] ++ failedRounds client "sendtoaddress"
                        [JStr "addr"; JStr "1.0"] 0)
      (url client) "sendtoaddress" [JStr "addr"; JStr "1.0"] = inr error
    /\ getShouldRetry "sendtoaddress" error = true
    /\ (includes PURE_METHODS "sendtoaddress" = true
        \/ getWasExecutedFromError "sendtoaddress" error = Some false)
    /\ 1 < MAX_ATTEMPTS.
Proof.
  apply (retried_only_when_safe (C := scriptedNode) client "sendtoaddress"
           [JStr "addr"; JStr "1.0"] 8 [] (Return (JStr "txid"))
           [pay; Delay 5000; pay] 0 [Delay 5000; pay]).
  - reflexivity.
  - reflexivity.
  - discriminate.
Defined.

Lemma rejected_error_stops_any_method_holds :
  getShouldRetry (Collaborators := scriptedNode) "lockunspent"
    "Internal error" = false
  /\ ([] : History) = []
  /\ Throw (A := JSON)
       (PeercoinRPCError (C := scriptedNode) "Internal error" None
          (getErrrorData "lockunspent" [] false MAX_ATTEMPTS 1))
     = Throw (PeercoinRPCError (C := scriptedNode) "Internal error"
                (getWasExecutedFromError (Collaborators := scriptedNode)
                   "lockunspent" "Internal error")
                (getErrrorData "lockunspent" []
                   (includes PURE_METHODS "lockunspent") MAX_ATTEMPTS 1)).
Proof.
  split; [reflexivity |].
  apply (rejected_error_stops_any_method (C := scriptedNode)
           client "lockunspent" [] 8 [] _
           [Call (url client) "lockunspent" []] 0 [] "Internal error");
    reflexivity.
Defined.

Lemma success_is_terminal_holds :
  ([] : History) = []
  /\ Return (E := Thrown) (JStr "txid") = Return (JStr "txid").
Proof.
  apply (success_is_terminal (C := scriptedNode) client "sendtoaddress"
           [JStr "addr"; JStr "1.0"] 8 [] _ [pay; Delay 5000; pay] 1 []
           (JStr "txid"));
    reflexivity.
Defined.

Lemma recovers_after_retryable_failures_holds :
  cmdWithRetry client 8 "sendtoaddress" [JStr "addr"; JStr "1.0"] []
    = Some (Return (JStr "txid"),
            [] ++ failedRounds client "sendtoaddress"
                    [JStr "addr"; JStr "1.0"] 1 ++ [pay])
  /\ transportAttempts
       (failedRounds client "sendtoaddress" [JStr "addr"; JStr "1.0"] 1
          ++ [pay]) = 2
  /\ delays
       (failedRounds client "sendtoaddress" [JStr "addr"; JStr "1.0"] 1
          ++ [pay]) = repeat DELAY_BETWEEN_ATTEMPTS 1.
Proof.
  apply (recovers_after_retryable_failures (C := scriptedNode)
           client "sendtoaddress"
           [JStr "addr"; JStr "1.0"] 8 [] 1 (JStr "txid")).
  - unfold MAX_ATTEMPTS. lia.
  - intros j Hj. assert (j = 0) as -> by lia.
    exists "ETIMEDOUT". repeat split; [reflexivity .. | right; reflexivity].
  - reflexivity.
  - unfold MAX_ATTEMPTS. lia.
Defined.

Lemma early_terminal_error_was_not_retryable_holds :
  exists error data,
    PeercoinRPCError (C := scriptedNode)
      "transaction already in block chain" (Some true)
      (getErrrorData "sendrawtransaction" [JStr "00"] false MAX_ATTEMPTS 1)
    = PeercoinRPCError error
        (getWasExecutedFromError "sendrawtransaction" error) data
    /\ ErrorData.maxAttempts data = 5
    /\ 1 <= ErrorData.attempts data <= ErrorData.maxAttempts data
    /\ (ErrorData.attempts data < ErrorData.maxAttempts data ->
        getShouldRetry "sendrawtransaction" error = false
        \/ (includes PURE_METHODS "sendrawtransaction" = false
            /\ getWasExecutedFromError "sendrawtransaction" error
               <> Some false)).
Proof.
  apply (early_terminal_error_was_not_retryable (C := scriptedNode)
           client "sendrawtransaction"
           [JStr "00"] 8 [] _
           [Call (url client) "sendrawtransaction" [JStr "00"]]).
  reflexivity.
Defined.

Lemma cmdWithRetryAndDecode_outcome_holds :
  exists k,
    k < MAX_ATTEMPTS
    /\ cmdWithRetryAndDecode client 8 GetInfoResultDecoder "getinfo" [] []
       = Some (match jsonRpcCmd ([] ++ failedRounds client "getinfo" [] k)
                       (url client) "getinfo" [] with
               | inl raw =>
                   match iotsDecode GetInfoResultDecoder raw with
                   | inl decoded => Return decoded
                   | inr error => Throw (AssignExecuted error true)
                   end
               | inr error =>
                   Throw (PeercoinRPCError error
                            (getWasExecutedFromError "getinfo" error)
                            (getErrrorData "getinfo" []
                               (includes PURE_METHODS "getinfo")
                               MAX_ATTEMPTS (S k)))
               end,
               [] ++ failedRounds client "getinfo" [] k
                  ++ [Call (url client) "getinfo" []]).
Proof.
  apply (cmdWithRetryAndDecode_outcome (C := scriptedNode) client "getinfo" [] 8
           GetInfoResultDecoder []).
  unfold MAX_ATTEMPTS. lia.
Defined.

Lemma retries_resend_the_same_request_holds :
  exists evs,
    [pay; Delay 5000; pay] = [] ++ evs
    /\ Forall (fun ev => ev = pay \/ ev = Delay 5000) evs
    /\ 1 <= transportAttempts evs <= MAX_ATTEMPTS.
Proof.
  apply (retries_resend_the_same_request (C := scriptedNode)
           client "sendtoaddress"
           [JStr "addr"; JStr "1.0"] 8 SendToAddressResultDecoder []
           (Return (JStr "txid"))).
  reflexivity.
Defined.

Lemma total_delay_is_bounded_holds :
  totalDelay [pay; Delay 5000; pay]
    = (5000 * (Z.of_nat (transportAttempts [pay; Delay 5000; pay]) - 1))%Z
  /\ (totalDelay [pay; Delay 5000; pay] <= 20000)%Z.
Proof.
  apply (total_delay_is_bounded (C := scriptedNode) client "sendtoaddress"
           [JStr "addr"; JStr "1.0"] 8 SendToAddressResultDecoder []
           (Return (JStr "txid"))).
  reflexivity.
Defined.

Lemma executor_failure_passes_through_holds :
  cmdWithRetryAndDecode client 8 SendRawTransactionResultDecoder
    "sendrawtransaction" [JStr "00"] []
    = Some (Throw (PeercoinRPCError (C := scriptedNode)
                     "transaction already in block chain" (Some true)
                     (getErrrorData "sendrawtransaction" [JStr "00"] false
                        MAX_ATTEMPTS 1)),
            [Call (url client) "sendrawtransaction" [JStr "00"]])
  /\ exists error data,
       PeercoinRPCError (C := scriptedNode)
      "transaction already in block chain" (Some true)
         (getErrrorData "sendrawtransaction" [JStr "00"] false
            MAX_ATTEMPTS 1)
       = PeercoinRPCError error
           (getWasExecutedFromError "sendrawtransaction" error) data.
Proof.
  apply (executor_failure_passes_through (C := scriptedNode)
           client "sendrawtransaction"
           [JStr "00"] 8 SendRawTransactionResultDecoder []).
  reflexivity.
Defined.

Lemma isReady_reports_last_request_holds :
  MAX_ATTEMPTS <= 8
  /\ exists k,
       k < MAX_ATTEMPTS
       /\ isReady client 8 []
          = Some (Return
                    match jsonRpcCmd
                            ([] ++ failedRounds client "getblockchaininfo"
                                     [] k)
                            (url client) "getblockchaininfo" [] with
                    | inl raw =>
                        match iotsDecode GetBlockchainInfoResultDecoder raw
                        with
                        | inl _ => true
                        | inr _ => false
                        end
                    | inr _ => false
                    end,
                  [] ++ failedRounds client "getblockchaininfo" [] k
                     ++ [Call (url client) "getblockchaininfo" []]).
Proof.
  assert (Hf : MAX_ATTEMPTS <= 8) by (unfold MAX_ATTEMPTS; lia).
  split; [exact Hf |].
  exact (isReady_reports_last_request (C := scriptedNode) client 8 [] Hf).
Defined.

Lemma listUnspent_omits_missing_minConf_holds :
  MAX_ATTEMPTS <= 8
  /\ exists c k args,
       listUnspent client 8 None []
         = Some (c, [] ++ failedRounds client "listunspent" args k
                       ++ [Call (url client) "listunspent" args])
       /\ length args = 0
       /\ Forall (fun p => p <> JUndefined) args
       /\ (forall n, None = Some n -> args = [JNum n]).
Proof.
  assert (Hf : MAX_ATTEMPTS <= 8) by (unfold MAX_ATTEMPTS; lia).
  split; [exact Hf |].
  exact (listUnspent_omits_missing_minConf (C := scriptedNode)
           client 8 None [] Hf).
Defined.

End FurtherOnScriptedNode.
